(** * Arc odometry of LemLib ([src/lemlib/odom/arc.cpp])

    A shallow embedding of [ArcOdom::calibrate], the two [calcDeltaTheta]
    overloads and [ArcOdom::update], and the properties of the pose
    estimator that follow from the code.

    Numbers of C++ type [float] are IEEE-754 binary32 values, taken from
    the Standard Library's executable specification of floating-point
    arithmetic ([SpecFloat], precision 24, maximal exponent 128, rounding
    to nearest even).  [std::sin] and [std::cos] are not specified by the
    language beyond their type; they are parameters of the development. *)

From Stdlib Require Import ZArith SpecFloat String.
From stdpp Require Import base list.

Set Default Proof Using "Type".

(** ** Single-precision arithmetic *)

Module F32.

Definition prec : Z := 24.
Definition emax : Z := 128.

Definition float : Type := spec_float.

Definition add : float -> float -> float := SFadd prec emax.
Definition sub : float -> float -> float := SFsub prec emax.
Definition mul : float -> float -> float := SFmul prec emax.
Definition div : float -> float -> float := SFdiv prec emax.

(** [a == b] on floats: [+0 == -0] holds and NaN equals nothing. *)
Definition eqb : float -> float -> bool := SFeqb.

(** Conversion of an integer to [float] (round to nearest even). *)
Definition of_Z (n : Z) : float := binary_normalize prec emax n 0 false.

(** Conversion of a [size_t] to [float], as the usual arithmetic
    conversions do in [x / v.size()]. *)
Definition of_size (n : nat) : float := of_Z (Z.of_nat n).

Definition zero : float := S754_zero false.
Definition one : float := of_Z 1.
Definition two : float := of_Z 2.

(** [m * 2^e], rounded; used to write literals. *)
Definition lit (m e : Z) : float := binary_normalize prec emax m e false.

End F32.

Abbreviation float := F32.float.

Declare Scope f32_scope.
Delimit Scope f32_scope with f32.
Infix "+" := F32.add : f32_scope.
Infix "-" := F32.sub : f32_scope.
Infix "*" := F32.mul : f32_scope.
Infix "/" := F32.div : f32_scope.
Infix "==" := F32.eqb (at level 70, no associativity) : f32_scope.

Local Open Scope f32_scope.

(** ** Collaborators declared outside [arc.cpp] *)

Module Pose.

(** Modelled from the spec: the value type [Pose] of [lemlib/pose.hpp],
    [(x, y, heading)] with the heading in radians. *)
Record t : Type := mk { x : float; y : float; theta : float }.

(** Modelled from the spec: [Pose::rotate] of [lemlib/pose.hpp] turns the
    [(x, y)] vector counter-clockwise by [angle] and leaves the heading
    alone.  [sinf] and [cosf] stand for [std::sin] and [std::cos] on
    [float]. *)
Definition rotate (sinf cosf : float -> float) (angle : float) (p : t) : t :=
  {| x := p.(x) * cosf angle - p.(y) * sinf angle;
     y := p.(x) * sinf angle + p.(y) * cosf angle;
     theta := p.(theta) |}.

(** Modelled from the spec: the sum of two poses ([operator+=] of
    [lemlib/pose.hpp]) is component-wise. *)
Definition add (p q : t) : t :=
  {| x := p.(x) + q.(x);
     y := p.(y) + q.(y);
     theta := p.(theta) + q.(theta) |}.

End Pose.

Module TrackingWheel.

(** Modelled from the spec: the class [TrackingWheel] of
    [lemlib/devices/trackingWheel.hpp].  A wheel knows its signed [offset]
    from the tracking centre, the cumulative [distance] its encoder
    reports, and the reading at which a delta was last consumed.
    [resetFails] is what the hardware answers to [reset()]: [true] means
    failure. *)
Record t : Type := mk {
  offset : float;
  distance : float;
  lastRead : float;
  resetFails : bool
}.

(** Modelled from the spec: [TrackingWheel::getOffset]. *)
Definition getOffset (w : t) : float := w.(offset).

(** The distance travelled since the last consuming read. *)
Definition distanceDelta (w : t) : float := w.(distance) - w.(lastRead).

(** Modelled from the spec: [TrackingWheel::getDistanceDelta(update)]
    reports that distance; the marker moves only when [update] is [true]
    (the default argument). *)
Definition getDistanceDelta (update : bool) (w : t) : float * t :=
  (distanceDelta w,
   if update
   then {| offset := w.(offset); distance := w.(distance);
           lastRead := w.(distance); resetFails := w.(resetFails) |}
   else w).

(** Modelled from the spec: [TrackingWheel::reset] reports whether it
    failed.  The spec leaves open what a reset does to the readings; here
    a successful one zeroes them.  The mounting offset is never touched. *)
Definition reset (w : t) : bool * t :=
  (w.(resetFails),
   if w.(resetFails) then w
   else {| offset := w.(offset); distance := F32.zero;
           lastRead := F32.zero; resetFails := false |}).

End TrackingWheel.

Module Gyro.

(** [Gyro] is an abstract class in the library ([std::shared_ptr<Gyro>]),
    so the estimator is stated over any implementation of its interface.
    [elapse dt] is not a method: it is what the device does on its own
    while the calling task sleeps for [dt] milliseconds (calibration is
    asynchronous). *)
Class t (G : Type) : Type := {
  calibrate : G -> G;
  isCalibrating : G -> bool;
  isCalibrated : G -> bool;
  getRotationDelta : G -> float * G;
  getPort : G -> nat;
  elapse : nat -> G -> G
}.

End Gyro.

(** Entries written to [infoSink()]: the format string of the source and
    the value substituted for its placeholder. *)
Inductive LogArg : Type :=
| NoArg
| OffsetArg (offset : float)
| PortArg (port : nat).

Inductive LogEntry : Type :=
| Warn (fmt : string) (arg : LogArg)
| Error (fmt : string) (arg : LogArg).

Module Timer.

(** Modelled from the spec: the class [Timer] of [lemlib/timer.hpp], a
    deadline timer over the millisecond clock. *)
Record t : Type := mk { period : nat; start : nat }.

(** Modelled from the spec: [Timer::Timer(period)], started at [now]. *)
Definition make (period now : nat) : t := {| period := period; start := now |}.

(** Modelled from the spec: [Timer::isDone], true once [period]
    milliseconds have passed since the start. *)
Definition isDone (tm : t) (now : nat) : bool :=
  Nat.leb tm.(period) (now - tm.(start)).

End Timer.

(** What a C++ call can come to: a normal return, an access through an
    iterator that no longer points into its vector (undefined behaviour),
    or, for the model only, an exhausted iteration budget. *)
Inductive Result (A : Type) : Type :=
| Done (a : A)
| Undefined
| OutOfFuel.
Arguments Done {A} a.
Arguments Undefined {A}.
Arguments OutOfFuel {A}.

Definition bind {A B : Type} (r : Result A) (k : A -> Result B) : Result B :=
  match r with
  | Done a => k a
  | Undefined => Undefined
  | OutOfFuel => OutOfFuel
  end.

Notation "'do' x <- r ; k" := (bind r (fun x => k))
  (at level 10, x name, r at level 100, k at level 200).

(** ** The estimator *)

Module ArcOdom.

(** ** Erasing from a vector while iterating over it

    [for (auto it = v.begin(); it != v.end(); it++)
       if (it->cond()) { warn(..., it->id()); v.erase(it); }]

    An iterator of [std::vector] is a position in the vector's buffer:
    [erase(it)] moves the later elements one place down and shortens the
    vector, the position itself stays, and [it++] then moves on by one.
    [visit] is the condition, which may change the element it looks at;
    [entry] is the log entry written before the erasure.  Reading
    through a position at or beyond the end is undefined behaviour.

    The language already invalidates [it] at [erase(it)]; the model
    follows the implementations in which an iterator is a bare position.
    A result [Undefined] is therefore undefined in every build, while a
    result [Done] of a run that erases an element is what such an
    implementation does, not what the language promises. *)
Section EraseLoop.

Context {A : Type}.
Variable visit : A -> bool * A.
Variable entry : A -> LogEntry.

Fixpoint eraseLoop (fuel it : nat) (v : list A) (out : list LogEntry)
  : Result (list A * list LogEntry) :=
  match fuel with
  | O => OutOfFuel
  | S fuel =>
      if Nat.eqb it (length v) then Done (v, out)
      else
        match v !! it with
        | None => Undefined
        | Some a =>
            let '(failed, a) := visit a in
            let v := <[it := a]> v in
            if failed
            then eraseLoop fuel (S it) (delete it v) (out ++ [entry a])
            else eraseLoop fuel (S it) v out
        end
  end.

(** The loop from [v.begin()]; it ends within [length v + 1] tests of
    its condition or not at all. *)
Definition eraseWhile (v : list A) (out : list LogEntry)
  : Result (list A * list LogEntry) :=
  eraseLoop (S (length v)) 0 v out.

(** The same loop read off the vector alone, without positions: the
    element that follows an erased one is stepped over unvisited, and
    erasing the last element leaves the iterator beyond the end. *)
Fixpoint eraseSkipping (v : list A) (out : list LogEntry)
  : Result (list A * list LogEntry) :=
  match v with
  | [] => Done ([], out)
  | a :: rest =>
      let '(failed, a) := visit a in
      if failed then
        match rest with
        | [] => Undefined
        | b :: rest =>
            do r <- eraseSkipping rest (out ++ [entry a]);
            Done (b :: fst r, snd r)
        end
      else
        do r <- eraseSkipping rest out;
        Done (a :: fst r, snd r)
  end.

End EraseLoop.

Section WithGyro.

Context {G : Type} `{Gyro.t G}.

(** [std::sin] and [std::cos] at type [float]. *)
Variables sinf cosf : float -> float.

(** The members of [ArcOdom] together with the two pieces of the
    environment the code acts on: the millisecond clock behind
    [Timer] and [pros::delay], and what has been written to
    [infoSink()]. *)
Record State : Type := mkState {
  verticals : list TrackingWheel.t;
  horizontals : list TrackingWheel.t;
  gyros : list G;
  pose : Pose.t;
  millis : nat;
  logs : list LogEntry
}.

Definition setVerticals (v : list TrackingWheel.t) (s : State) : State :=
  mkState v s.(horizontals) s.(gyros) s.(pose) s.(millis) s.(logs).
Definition setHorizontals (h : list TrackingWheel.t) (s : State) : State :=
  mkState s.(verticals) h s.(gyros) s.(pose) s.(millis) s.(logs).
Definition setGyros (g : list G) (s : State) : State :=
  mkState s.(verticals) s.(horizontals) g s.(pose) s.(millis) s.(logs).
Definition setPose (p : Pose.t) (s : State) : State :=
  mkState s.(verticals) s.(horizontals) s.(gyros) p s.(millis) s.(logs).
Definition setMillis (t : nat) (s : State) : State :=
  mkState s.(verticals) s.(horizontals) s.(gyros) s.(pose) t s.(logs).
Definition setLogs (l : list LogEntry) (s : State) : State :=
  mkState s.(verticals) s.(horizontals) s.(gyros) s.(pose) s.(millis) l.

(** [infoSink()->warn(...)] and [infoSink()->error(...)]. *)
Definition log (entry : LogEntry) (s : State) : State :=
  setLogs (s.(logs) ++ [entry]) s.

(** Modelled from the spec: [pros::delay(ms)], the millisecond sleep of
    the scheduler; the clock moves on and the gyros, which calibrate on
    their own, with it. *)
Definition delay (ms : nat) (s : State) : State :=
  setMillis (s.(millis) + ms) (setGyros (map (Gyro.elapse ms) s.(gyros)) s).

(** *** [ArcOdom::calibrate] *)

Definition verticalFailed (w : TrackingWheel.t) : LogEntry :=
  Warn "Vertical tracker at offset {} failed calibration!"
       (OffsetArg (TrackingWheel.getOffset w)).

Definition horizontalFailed (w : TrackingWheel.t) : LogEntry :=
  Warn "Horizontal tracker at offset {} failed calibration!"
       (OffsetArg (TrackingWheel.getOffset w)).

Definition imuFailed (g : G) : LogEntry :=
  Warn "IMU on port {} failed to calibrate! Removing" (PortArg (Gyro.getPort g)).

(** Lines 52-54: what a round does to one gyro. *)
Definition recalibrate (g : G) : G :=
  if negb (Gyro.isCalibrating g) && negb (Gyro.isCalibrated g)
  then Gyro.calibrate g else g.

(** What a round of the loop and the delay after it do to one gyro. *)
Definition gyroRound (g : G) : G := Gyro.elapse 10 (recalibrate g).

(** Lines 52-55: the body of the polling loop. *)
Definition pollRound (s : State) : State :=
  delay 10 (setGyros (map recalibrate s.(gyros)) s).

(** Lines 51-56: [while (!timer.isDone()) { ...; pros::delay(10); }]. *)
Fixpoint pollLoop (fuel : nat) (timer : Timer.t) (s : State) : Result State :=
  match fuel with
  | O => OutOfFuel
  | S fuel =>
      if Timer.isDone timer s.(millis) then Done s
      else pollLoop fuel timer (pollRound s)
  end.

(** Lines 49-56.  The clock gains 10 ms per round, so the condition of
    the loop is tested at most 301 times. *)
Definition pollGyros (s : State) : Result State :=
  let s := setGyros (map Gyro.calibrate s.(gyros)) s in
  let timer := Timer.make 3000 s.(millis) in
  pollLoop 301 timer s.

Definition calibrate (calibrateGyros : bool) (s : State) : Result State :=
  do r <- eraseWhile TrackingWheel.reset verticalFailed s.(verticals) s.(logs);
  let s := setLogs (snd r) (setVerticals (fst r) s) in
  do r <- eraseWhile TrackingWheel.reset horizontalFailed s.(horizontals) s.(logs);
  let s := setLogs (snd r) (setHorizontals (fst r) s) in
  if calibrateGyros then
    do s <- pollGyros s;
    do r <- eraseWhile (fun g => (negb (Gyro.isCalibrated g), g)) imuFailed
                       s.(gyros) s.(logs);
    Done (setLogs (snd r) (setGyros (fst r) s))
  else Done s.

(** *** [calcDeltaTheta], lines 77-81: heading change from two wheels.

    The two wheels come back as the calls left them. *)
Definition calcDeltaTheta (tracker1 tracker2 : TrackingWheel.t)
  : float * (TrackingWheel.t * TrackingWheel.t) :=
  let '(delta1, tracker1) := TrackingWheel.getDistanceDelta false tracker1 in
  let '(delta2, tracker2) := TrackingWheel.getDistanceDelta false tracker2 in
  let numerator := delta1 - delta2 in
  let denominator :=
    TrackingWheel.getOffset tracker1 - TrackingWheel.getOffset tracker2 in
  (numerator / denominator, (tracker1, tracker2)).

(** *** [calcDeltaTheta], lines 91-95: heading change from the gyros.

    [deltaTheta += gyro->getRotationDelta() / gyros.size()] for each
    gyro in turn; [size] is [gyros.size()] of the whole vector. *)
Fixpoint gyroLoop (size : nat) (gyros : list G) (deltaTheta : float)
  : float * list G :=
  match gyros with
  | [] => (deltaTheta, [])
  | gyro :: rest =>
      let '(delta, gyro) := Gyro.getRotationDelta gyro in
      let '(deltaTheta, rest) :=
        gyroLoop size rest (deltaTheta + delta / F32.of_size size) in
      (deltaTheta, gyro :: rest)
  end.

Definition calcDeltaTheta_gyros (gyros : list G) : float * list G :=
  gyroLoop (length gyros) gyros F32.zero.

(** *** [ArcOdom::update] *)

Definition notEnoughSensors : LogEntry :=
  Error "Odom calculation failure! Not enough sensors to calculate heading" NoArg.

Definition noVerticals : LogEntry :=
  Warn "No vertical tracking wheels! Assuming y movement is 0" NoArg.

(** Lines 116-126: the new heading [theta], or nothing when no source
    of heading is left.  [v.size() > 1] followed by [v.at(0)] and
    [v.at(1)] is a match on the first two elements. *)
Definition resolveTheta (s : State) : option (float * State) :=
  let theta := s.(pose).(Pose.theta) in
  if Nat.ltb 0 (length s.(gyros)) then
    let '(delta, gyros) := calcDeltaTheta_gyros s.(gyros) in
    Some (theta + delta, setGyros gyros s)
  else
    match s.(horizontals) with
    | tracker1 :: tracker2 :: rest =>
        let '(delta, (tracker1, tracker2)) := calcDeltaTheta tracker1 tracker2 in
        Some (theta + delta, setHorizontals (tracker1 :: tracker2 :: rest) s)
    | _ =>
        match s.(verticals) with
        | tracker1 :: tracker2 :: rest =>
            let '(delta, (tracker1, tracker2)) := calcDeltaTheta tracker1 tracker2 in
            Some (theta + delta, setVerticals (tracker1 :: tracker2 :: rest) s)
        | _ => None
        end
    end.

(** Line 133. *)
Definition chord (deltaTheta : float) : float :=
  if deltaTheta == F32.zero then F32.one
  else F32.two * sinf (deltaTheta / F32.two).

(** Lines 137-138 and 144-145; [getDistanceDelta()] takes its default
    argument, the consuming read. *)
Definition arcRadius (deltaTheta : float) (tracker : TrackingWheel.t)
  : float * TrackingWheel.t :=
  if deltaTheta == F32.zero then TrackingWheel.getDistanceDelta true tracker
  else
    let '(delta, tracker) := TrackingWheel.getDistanceDelta true tracker in
    (delta / deltaTheta + TrackingWheel.getOffset tracker, tracker).

(** The body shared by the loops of lines 135-140 and 142-147:
    [axis += sinDTheta2 * radius / size] for each tracker, where [size]
    is whatever [size()] the source divides by. *)
Fixpoint trackerLoop (deltaTheta sinDTheta2 : float) (size : nat)
    (trackers : list TrackingWheel.t) (axis : float)
  : float * list TrackingWheel.t :=
  match trackers with
  | [] => (axis, [])
  | tracker :: rest =>
      let '(radius, tracker) := arcRadius deltaTheta tracker in
      let '(axis, rest) :=
        trackerLoop deltaTheta sinDTheta2 size rest
                    (axis + sinDTheta2 * radius / F32.of_size size) in
      (axis, tracker :: rest)
  end.

(** Lines 131-147: the local displacement of the cycle; both loops
    divide by [horizontals.size()]. *)
Definition localChange (deltaTheta : float) (s : State) : Pose.t * State :=
  let sinDTheta2 := chord deltaTheta in
  let size := length s.(horizontals) in
  let '(x, horizontals) :=
    trackerLoop deltaTheta sinDTheta2 size s.(horizontals) F32.zero in
  let '(y, verticals) :=
    trackerLoop deltaTheta sinDTheta2 size s.(verticals) F32.zero in
  (Pose.mk x y deltaTheta, setVerticals verticals (setHorizontals horizontals s)).

Definition update (s : State) : State :=
  match resolveTheta s with
  | None => log notEnoughSensors s
  | Some (theta, s) =>
      let deltaTheta := theta - s.(pose).(Pose.theta) in
      let avgTheta := s.(pose).(Pose.theta) + deltaTheta / F32.two in
      let '(local, s) := localChange deltaTheta s in
      let s :=
        if Nat.eqb (length s.(verticals)) 0
        then log noVerticals s
        else s in
      setPose (Pose.add s.(pose) (Pose.rotate sinf cosf avgTheta local)) s
  end.

(** In the words of the spec: the arithmetic mean of the gyros'
    [getRotationDelta()]. *)
Definition meanRotationDelta (gyros : list G) : float :=
  fold_left (fun sum gyro => sum + fst (Gyro.getRotationDelta gyro)) gyros F32.zero
  / F32.of_size (length gyros).

(** The heading change of a cycle, line 127, when one is resolved. *)
Definition headingDelta (s : State) : option float :=
  match resolveTheta s with
  | Some (theta, _) => Some (theta - s.(pose).(Pose.theta))
  | None => None
  end.

End WithGyro.

Arguments State G : clear implicits.
Arguments mkState {G} _ _ _ _ _ _.

End ArcOdom.

(** ** A simulated gyro

    An implementation of the [Gyro] interface to run the estimator on:
    [startup] is the time in milliseconds a calibration takes once it is
    started, or [None] for a device on which [calibrate()] never takes
    hold. *)
Module SimGyro.

Inductive Status : Type :=
| Idle
| Calibrating (remaining : nat)
| Calibrated.

Record t : Type := mk {
  port : nat;
  rotation : float;
  lastRotation : float;
  status : Status;
  startup : option nat
}.

Definition setStatus (st : Status) (g : t) : t :=
  mk g.(port) g.(rotation) g.(lastRotation) st g.(startup).

Definition calibrate (g : t) : t :=
  match g.(startup) with
  | Some ms => setStatus (Calibrating ms) g
  | None => g
  end.

Definition isCalibrating (g : t) : bool :=
  match g.(status) with Calibrating _ => true | _ => false end.

Definition isCalibrated (g : t) : bool :=
  match g.(status) with Calibrated => true | _ => false end.

Definition getRotationDelta (g : t) : float * t :=
  (g.(rotation) - g.(lastRotation),
   mk g.(port) g.(rotation) g.(rotation) g.(status) g.(startup)).

Definition elapse (ms : nat) (g : t) : t :=
  match g.(status) with
  | Calibrating remaining =>
      if Nat.leb remaining ms then setStatus Calibrated g
      else setStatus (Calibrating (remaining - ms)) g
  | _ => g
  end.

#[global] Instance gyro : Gyro.t t := {|
  Gyro.calibrate := calibrate;
  Gyro.isCalibrating := isCalibrating;
  Gyro.isCalibrated := isCalibrated;
  Gyro.getRotationDelta := getRotationDelta;
  Gyro.getPort := port;
  Gyro.elapse := elapse
|}.

End SimGyro.

(** ** Configurations to run the estimator on *)

Module Config.

Import ArcOdom.

Definition origin : Pose.t := Pose.mk F32.zero F32.zero F32.zero.

(** A wheel at [offset] whose encoder has moved by [distance] since the
    last consuming read. *)
Definition wheel (offset distance : Z) (resetFails : bool) : TrackingWheel.t :=
  TrackingWheel.mk (F32.of_Z offset) (F32.of_Z distance) F32.zero resetFails.

(** An idle gyro that has turned by [rotation] since it was last read. *)
Definition imu (port : nat) (rotation : float) (startup : option nat) : SimGyro.t :=
  SimGyro.mk port rotation F32.zero SimGyro.Idle startup.

(** Two vertical wheels, neither of which can be reset. *)
Definition twoDeadVerticals : State SimGyro.t :=
  mkState [wheel 1 0 true; wheel 2 0 true] [] [] origin 0 [].

(** A single vertical wheel that cannot be reset. *)
Definition oneDeadVertical : State SimGyro.t :=
  mkState [wheel 1 0 true] [] [] origin 0 [].

(** Two gyros on which calibration never takes hold. *)
Definition twoDeadImus : State SimGyro.t :=
  mkState [] [] [imu 1 F32.zero None; imu 2 F32.zero None] origin 0 [].

(** Heading 1 rad, and one gyro that has turned by 2^-25 rad. *)
Definition tinyTurn : State SimGyro.t :=
  mkState [] [] [imu 1 (F32.lit 1 (-25)) None]
          (Pose.mk F32.zero F32.zero F32.one) 0 [].

(** A still gyro, two horizontal wheels and one vertical wheel; every
    wheel has moved by 1. *)
Definition lopsided : State SimGyro.t :=
  mkState [wheel 1 1 false] [wheel 1 1 false; wheel (-1) 1 false]
          [imu 1 F32.zero None] origin 0 [].

(** A still gyro and one vertical wheel that has moved by 1; no
    horizontal wheel. *)
Definition gyroAndVertical : State SimGyro.t :=
  mkState [wheel 1 1 false] [] [imu 1 F32.zero None] origin 0 [].

(** A still gyro, one horizontal and two vertical wheels at heading 0;
    every wheel has moved by 1. *)
Definition straightLine : State SimGyro.t :=
  mkState [wheel 1 1 false; wheel (-1) 1 false] [wheel 1 1 false]
          [imu 1 F32.zero None] origin 0 [].

(** Two wheels at offsets 1 and -1 that have moved by 3 and 1. *)
Definition leftWheel : TrackingWheel.t := wheel 1 3 false.
Definition rightWheel : TrackingWheel.t := wheel (-1) 1 false.

(** Stand-ins for [std::sin] and [std::cos] that are right at 0. *)
Definition sinAtZero (_ : float) : float := F32.zero.
Definition cosAtZero (_ : float) : float := F32.one.

(** No gyro and one wheel in each group. *)
Definition oneWheelEach : State SimGyro.t :=
  mkState [wheel 1 1 false] [wheel 1 1 false] [] origin 0 [].

(** Three gyros that report themselves calibrated from the start. *)
Definition calibratedImu (port : nat) : SimGyro.t :=
  SimGyro.mk port F32.zero F32.zero SimGyro.Calibrated (Some 0).
Definition allCalibrated : State SimGyro.t :=
  mkState [] [] [calibratedImu 1; calibratedImu 2; calibratedImu 3] origin 0 [].

End Config.



(** ** Notions used to state further properties *)

(** Neither an infinity nor a NaN. *)
Definition finite (x : float) : bool :=
  match x with
  | S754_zero _ | S754_finite _ _ _ => true
  | S754_infinity _ | S754_nan => false
  end.

(** A wheel after one consuming read. *)
Definition consumed (w : TrackingWheel.t) : TrackingWheel.t :=
  snd (TrackingWheel.getDistanceDelta true w).

Section SensorNotions.

Context {G : Type} `{Gyro.t G}.

(** The condition of lines 117-122 under which a heading is resolved. *)
Definition enoughSensors (s : ArcOdom.State G) : bool :=
  Nat.ltb 0 (length s.(ArcOdom.gyros))
  || Nat.ltb 1 (length s.(ArcOdom.horizontals))
  || Nat.ltb 1 (length s.(ArcOdom.verticals)).

(** A gyro at the end of the polling of lines 49-56. *)
Definition polled (g : G) : G := Nat.iter 300 ArcOdom.gyroRound (Gyro.calibrate g).

End SensorNotions.

(** Further configurations. *)
Module Fleet.

Import ArcOdom.

(** One wheel in each group and a gyro that calibrates within 50 ms. *)
Definition healthy : State SimGyro.t :=
  mkState [Config.wheel 1 5 false] [Config.wheel 2 7 false]
          [Config.imu 1 F32.zero (Some 50)] Config.origin 0 [].


(** No gyro, and two horizontal wheels mounted at the same offset that
    have moved by 3 and 1. *)
Definition twinOffsets : State SimGyro.t :=
  mkState [] [Config.wheel 1 3 false; Config.wheel 1 1 false] []
          Config.origin 0 [].

End Fleet.

(** * Properties *)

Import ArcOdom.

Local Close Scope f32_scope.

(** ** The erasing loops of [calibrate] *)

Section EraseLoopFacts.

Context {A : Type} (visit : A -> bool * A) (entry : A -> LogEntry).

(** From position [length pre] on, with the elements before it settled,
    the loop over positions does to the rest of the vector what
    [eraseSkipping] describes. *)
Lemma eraseLoop_skipping fuel : forall (pre v : list A) (out : list LogEntry),
  length v < fuel ->
  eraseLoop visit entry fuel (length pre) (pre ++ v) out =
  do r <- eraseSkipping visit entry v out; Done (pre ++ fst r, snd r).
Proof.
  induction fuel as [|fuel IH]; intros pre v out Hfuel; [lia|].
  destruct v as [|a rest]; cbn [eraseLoop eraseSkipping bind fst snd].
  - rewrite app_nil_r, Nat.eqb_refl. reflexivity.
  - replace (length pre =? length (pre ++ a :: rest)) with false
      by (symmetry; apply Nat.eqb_neq; rewrite length_app; cbn; lia).
    rewrite list_lookup_middle by reflexivity.
    destruct (visit a) as [failed a'].
    replace (<[length pre:=a']> (pre ++ a :: rest)) with (pre ++ a' :: rest)
      by (rewrite insert_app_r_alt, Nat.sub_diag by lia; reflexivity).
    destruct failed.
    + rewrite delete_middle.
      destruct rest as [|b rest].
      * destruct fuel as [|fuel]; [cbn in Hfuel; lia|].
        cbn [eraseLoop]. rewrite app_nil_r.
        replace (S (length pre) =? length pre) with false
          by (symmetry; apply Nat.eqb_neq; lia).
        rewrite lookup_ge_None_2 by lia. reflexivity.
      * specialize (IH (pre ++ [b]) rest (out ++ [entry a'])).
        rewrite length_app, <- app_assoc in IH. cbn in IH.
        rewrite Nat.add_1_r in IH. rewrite IH by (cbn in Hfuel; lia).
        destruct (eraseSkipping visit entry rest (out ++ [entry a'])) as [[r o]| |];
          cbn; rewrite <- ?app_assoc; reflexivity.
    + specialize (IH (pre ++ [a']) rest out).
      rewrite length_app, <- app_assoc in IH. cbn in IH.
      rewrite Nat.add_1_r in IH. rewrite IH by (cbn in Hfuel; lia).
      destruct (eraseSkipping visit entry rest out) as [[r o]| |];
        cbn; rewrite <- ?app_assoc; reflexivity.
Qed.

(** Started at [v.begin()], the loop is [eraseSkipping]. *)
Lemma eraseWhile_skipping (v : list A) (out : list LogEntry) :
  eraseWhile visit entry v out = eraseSkipping visit entry v out.
Proof.
  unfold eraseWhile.
  pose proof (eraseLoop_skipping (S (length v)) [] v out) as E.
  cbn [length app] in E. rewrite E by lia.
  destruct (eraseSkipping visit entry v out) as [[r o]| |]; reflexivity.
Qed.

(** The budget of [length v + 1] tests is never used up. *)
Lemma eraseSkipping_fuel (v : list A) : forall out,
  eraseSkipping visit entry v out <> OutOfFuel.
Proof.
  induction v as [v IH] using (induction_ltof1 _ (@length A)); unfold ltof in IH.
  intros out. destruct v as [|a rest]; cbn [eraseSkipping]; [discriminate|].
  destruct (visit a) as [[] a'].
  - destruct rest as [|b rest]; [discriminate|].
    specialize (IH rest ltac:(cbn; lia) (out ++ [entry a'])).
    destruct (eraseSkipping visit entry rest (out ++ [entry a'])); cbn; congruence.
  - specialize (IH rest ltac:(cbn; lia) out).
    destruct (eraseSkipping visit entry rest out); cbn; congruence.
Qed.

(** So the loop either returns or reads through a stale iterator. *)
Lemma eraseWhile_cases (v : list A) (out : list LogEntry) :
  eraseWhile visit entry v out = Undefined \/
  exists v' out', eraseWhile visit entry v out = Done (v', out').
Proof.
  pose proof (eraseSkipping_fuel v out) as Hfuel.
  rewrite eraseWhile_skipping.
  destruct (eraseSkipping visit entry v out) as [[v' out']| |];
    [right; eauto|left; reflexivity|congruence].
Qed.

End EraseLoopFacts.

(** ** The polling loop of [calibrate] *)

Section PollFacts.

Context {G : Type} `{Gyro.t G}.

(** [n] rounds move the clock by [10 * n] ms and touch the gyros only. *)
Lemma iter_pollRound n (s : State G) :
  Nat.iter n pollRound s =
  mkState s.(verticals) s.(horizontals) (map (Nat.iter n gyroRound) s.(gyros))
          s.(pose) (s.(millis) + 10 * n) s.(logs).
Proof.
  induction n as [|n IH].
  - destruct s as [v h g p t l]; cbn. rewrite map_id, Nat.add_0_r. reflexivity.
  - rewrite Nat.iter_succ, IH.
    unfold pollRound, delay, setMillis, setGyros; cbn [verticals horizontals gyros pose millis logs].
    rewrite !map_map. f_equal. lia.
Qed.

(** With [10 * n] ms left on the timer the loop makes exactly [n] rounds. *)
Lemma pollLoop_rounds n : forall fuel timer (s : State G),
  n < fuel ->
  Timer.start timer <= s.(millis) ->
  s.(millis) + 10 * n = Timer.start timer + Timer.period timer ->
  pollLoop fuel timer s = Done (Nat.iter n pollRound s).
Proof.
  induction n as [|n IH]; intros fuel timer s Hfuel Hstart Hleft;
    (destruct fuel as [|fuel]; [lia|]); cbn [pollLoop]; unfold Timer.isDone.
  - replace (Timer.period timer <=? millis s - Timer.start timer) with true
      by (symmetry; apply Nat.leb_le; lia).
    reflexivity.
  - replace (Timer.period timer <=? millis s - Timer.start timer) with false
      by (symmetry; apply Nat.leb_gt; lia).
    rewrite IH; [rewrite Nat.iter_succ_r; reflexivity|lia|cbn; lia|cbn; lia].
Qed.

Lemma pollGyros_done (s : State G) :
  pollGyros s =
  Done (mkState s.(verticals) s.(horizontals)
                (map (fun g => Nat.iter 300 gyroRound (Gyro.calibrate g)) s.(gyros))
                s.(pose) (s.(millis) + 3000) s.(logs)).
Proof.
  unfold pollGyros.
  rewrite (pollLoop_rounds 300) by (cbn; lia).
  rewrite iter_pollRound. cbn [verticals horizontals gyros pose millis logs setGyros].
  rewrite map_map. reflexivity.
Qed.

(** C10.  With heading calibration requested, the polling of lines 49-56
    always comes to an end, and it does so exactly when the 3000 ms timer
    expires: every gyro is first issued [calibrate()] and then goes
    through exactly 300 rounds of 10 ms, whatever it reports about itself
    and for every implementation of the [Gyro] interface.  Hence whenever
    [calibrate(true)] returns, 3000 ms have passed; the model never runs
    out of its iteration budget. *)
Theorem calibrate_waits_full_budget (s : State G) :
  (exists s', pollGyros s = Done s' /\
              s'.(millis) = s.(millis) + 3000 /\
              s'.(gyros) = map (fun g => Nat.iter 300 gyroRound (Gyro.calibrate g)) s.(gyros))
  /\ match calibrate true s with
     | Done s' => s'.(millis) = s.(millis) + 3000
     | Undefined => True
     | OutOfFuel => False
     end.
Proof.
  split.
  - eexists. split; [apply pollGyros_done|]. split; reflexivity.
  - unfold calibrate.
    destruct (eraseWhile_cases TrackingWheel.reset verticalFailed
                s.(verticals) s.(logs)) as [->|(v & lv & ->)];
      cbn [bind fst snd]; [exact I|].
    cbn [setVerticals setLogs verticals horizontals gyros pose millis logs].
    destruct (eraseWhile_cases TrackingWheel.reset horizontalFailed
                s.(horizontals) lv) as [->|(h & lh & ->)];
      cbn [bind fst snd]; [exact I|].
    rewrite pollGyros_done. cbn [bind].
    cbn [setHorizontals setVerticals setLogs verticals horizontals gyros pose millis logs].
    match goal with |- context [eraseWhile ?f ?e ?l ?o] =>
      destruct (eraseWhile_cases f e l o) as [->|(g & lg & ->)] end;
      cbn [bind fst snd]; [exact I|reflexivity].
Qed.

End PollFacts.

(** ** [calcDeltaTheta] and [update] *)

Local Open Scope f32_scope.

Section UpdateFacts.

Context {G : Type} `{Gyro.t G}.
Variables sinf cosf : float -> float.

Lemma gyroLoop_sum size : forall (gs : list G) (acc : float),
  gyroLoop size gs acc =
  (fold_left (fun sum g => sum + fst (Gyro.getRotationDelta g) / F32.of_size size) gs acc,
   map (fun g => snd (Gyro.getRotationDelta g)) gs).
Proof.
  induction gs as [|g gs IH]; intros acc; cbn [gyroLoop fold_left map]; [reflexivity|].
  destruct (Gyro.getRotationDelta g) as [d g']. rewrite IH. reflexivity.
Qed.

Lemma calcDeltaTheta_eq (t1 t2 : TrackingWheel.t) :
  calcDeltaTheta t1 t2 =
  ((TrackingWheel.distanceDelta t1 - TrackingWheel.distanceDelta t2)
   / (TrackingWheel.offset t1 - TrackingWheel.offset t2), (t1, t2)).
Proof. reflexivity. Qed.

Lemma resolveTheta_pose (s s1 : State G) theta :
  resolveTheta s = Some (theta, s1) -> s1.(pose) = s.(pose).
Proof.
  unfold resolveTheta. intros Hr.
  destruct (0 <? length (gyros s))%nat.
  - destruct (calcDeltaTheta_gyros (gyros s)). injection Hr as _ <-. reflexivity.
  - destruct (horizontals s) as [|h1 [|h2 hs]].
    1,2: destruct (verticals s) as [|v1 [|v2 vs]]; try discriminate;
         rewrite calcDeltaTheta_eq in Hr; injection Hr as _ <-; reflexivity.
    rewrite calcDeltaTheta_eq in Hr; injection Hr as _ <-; reflexivity.
Qed.

Lemma localChange_pose dtheta (s : State G) :
  (snd (localChange sinf dtheta s)).(pose) = s.(pose).
Proof.
  unfold localChange.
  destruct (trackerLoop dtheta _ _ (horizontals s) _) as [x hs].
  destruct (trackerLoop dtheta _ _ _ _) as [y vs]. reflexivity.
Qed.

Lemma localChange_theta dtheta (s : State G) :
  Pose.theta (fst (localChange sinf dtheta s)) = dtheta.
Proof.
  unfold localChange.
  destruct (trackerLoop dtheta _ _ (horizontals s) _) as [x hs].
  destruct (trackerLoop dtheta _ _ _ _) as [y vs]. reflexivity.
Qed.

Lemma update_pose (s s1 : State G) theta :
  resolveTheta s = Some (theta, s1) ->
  (update sinf cosf s).(pose) =
  Pose.add s.(pose)
    (Pose.rotate sinf cosf
       (s.(pose).(Pose.theta) + (theta - s.(pose).(Pose.theta)) / F32.two)
       (fst (localChange sinf (theta - s.(pose).(Pose.theta)) s1))).
Proof.
  intros Hr. unfold update. rewrite Hr.
  pose proof (resolveTheta_pose _ _ _ Hr) as Hp. rewrite Hp.
  pose proof (localChange_pose (theta - Pose.theta (pose s)) s1) as Hl.
  destruct (localChange sinf _ s1) as [local s2]. cbn [fst snd] in *.
  destruct (length (verticals s2) =? 0)%nat; cbn; rewrite Hl, Hp; reflexivity.
Qed.

(** C3.  With no gyro and fewer than two wheels in each of the two groups,
    [update()] writes the error of line 124 to the log and changes nothing
    else: the pose after the call is the pose before it, field for field
    and bit for bit. *)
Theorem update_insufficient_sensors (s : State G) :
  s.(gyros) = [] ->
  length s.(horizontals) < 2 ->
  length s.(verticals) < 2 ->
  update sinf cosf s = setLogs (s.(logs) ++ [notEnoughSensors]) s /\
  (update sinf cosf s).(pose) = s.(pose).
Proof.
  intros Hg Hh Hv.
  assert (resolveTheta s = None) as Hr.
  { unfold resolveTheta. rewrite Hg. cbn.
    destruct (horizontals s) as [|h1 [|h2 hs]]; [| |cbn in Hh; lia];
      (destruct (verticals s) as [|v1 [|v2 vs]]; [| |cbn in Hv; lia]); reflexivity. }
  unfold update. rewrite Hr. split; reflexivity.
Qed.

(** C6.  For two wheels [s1] and [s2] whose offsets differ, the
    two-wheel heading change is
    [(s1.distanceDelta - s2.distanceDelta) / (s1.offset - s2.offset)],
    and both wheels come back from the computation as they went in: the
    markers of their last consuming read have not moved. *)
Theorem calcDeltaTheta_two_wheels (s1 s2 : TrackingWheel.t) :
  (TrackingWheel.offset s1 == TrackingWheel.offset s2) = false ->
  calcDeltaTheta s1 s2 =
  ((TrackingWheel.distanceDelta s1 - TrackingWheel.distanceDelta s2)
   / (TrackingWheel.offset s1 - TrackingWheel.offset s2), (s1, s2)) /\
  TrackingWheel.lastRead (fst (snd (calcDeltaTheta s1 s2))) = TrackingWheel.lastRead s1 /\
  TrackingWheel.lastRead (snd (snd (calcDeltaTheta s1 s2))) = TrackingWheel.lastRead s2.
Proof. intros _. repeat split. Qed.

(** C7.  In a cycle whose heading resolves to [theta], let
    [deltaTheta = theta - pose.theta], [avgTheta = pose.theta + deltaTheta / 2]
    and [local = (localX, localY, deltaTheta)] the displacement measured
    in the robot's frame.  Then the new pose is the old pose plus [local]
    rotated by [avgTheta], the heading at the middle of the cycle, and the
    stored heading grows by [deltaTheta]. *)
Theorem update_midpoint_rotation (s s1 : State G) (theta : float) :
  resolveTheta s = Some (theta, s1) ->
  let deltaTheta := theta - s.(pose).(Pose.theta) in
  let avgTheta := s.(pose).(Pose.theta) + deltaTheta / F32.two in
  let local := fst (localChange sinf deltaTheta s1) in
  (update sinf cosf s).(pose) = Pose.add s.(pose) (Pose.rotate sinf cosf avgTheta local) /\
  local.(Pose.theta) = deltaTheta /\
  (update sinf cosf s).(pose).(Pose.theta) = s.(pose).(Pose.theta) + deltaTheta.
Proof.
  intros Hr deltaTheta avgTheta local.
  pose proof (update_pose s s1 theta Hr) as Hu. fold deltaTheta avgTheta local in Hu.
  split; [exact Hu|]. split; [apply localChange_theta|].
  rewrite Hu. cbn. unfold local. rewrite localChange_theta. reflexivity.
Qed.

(** C4, as amended.  The heading change of a cycle is resolved by strict
    priority.  With at least one gyro, the heading change used for the
    cycle is [(pose.theta + sum) - pose.theta], evaluated in single
    precision, where [sum] is the running single-precision sum of
    [getRotationDelta() / gyros.size()] over all gyros in their order; no
    wheel enters it.  The first two horizontal wheels are consulted only
    when there is no gyro, and the first two vertical wheels only when, in
    addition, there are fewer than two horizontal wheels; with neither, no
    heading change is resolved. *)
Theorem headingDelta_priority (s : State G) :
  let theta := s.(pose).(Pose.theta) in
  let twoWheels (s1 s2 : TrackingWheel.t) :=
    (TrackingWheel.distanceDelta s1 - TrackingWheel.distanceDelta s2)
    / (TrackingWheel.offset s1 - TrackingWheel.offset s2) in
  headingDelta s =
  match s.(gyros) with
  | _ :: _ =>
      Some (theta
            + fold_left (fun sum g => sum + fst (Gyro.getRotationDelta g)
                                            / F32.of_size (length s.(gyros)))
                        s.(gyros) F32.zero
            - theta)
  | [] =>
      match s.(horizontals) with
      | s1 :: s2 :: _ => Some (theta + twoWheels s1 s2 - theta)
      | _ =>
          match s.(verticals) with
          | s1 :: s2 :: _ => Some (theta + twoWheels s1 s2 - theta)
          | _ => None
          end
      end
  end.
Proof.
  intros theta twoWheels. unfold headingDelta, resolveTheta, calcDeltaTheta_gyros.
  rewrite gyroLoop_sum.
  destruct (gyros s) as [|g gs]; cbn [length Nat.ltb Nat.leb]; [|reflexivity].
  destruct (horizontals s) as [|h1 [|h2 hs]];
    [destruct (verticals s) as [|v1 [|v2 vs]]; reflexivity
    |destruct (verticals s) as [|v1 [|v2 vs]]; reflexivity
    |reflexivity].
Qed.

End UpdateFacts.

(** ** The estimator on concrete configurations *)

(** C1, on a failing input.  Two vertical wheels, both of which fail
    [reset()]: [calibrate()] erases the first and steps over the second,
    which stays in the active collection without ever being reset.  With
    a single failing wheel the iterator ends up beyond the end of the
    vector. *)
Theorem calibrate_skips_wheel_after_erased :
  calibrate false Config.twoDeadVerticals =
  Done (mkState [Config.wheel 2 0 true] [] [] Config.origin 0
                [verticalFailed (Config.wheel 1 0 true)]) /\
  calibrate false Config.oneDeadVertical = Undefined.
Proof. split; vm_compute; reflexivity. Qed.

(** C5, on a failing input.  Two gyros that never calibrate: after the
    3000 ms of polling, [calibrate(true)] warns about the first and erases
    it, and steps over the second, which stays in the collection
    uncalibrated and unreported. *)
Theorem calibrate_keeps_uncalibrated_imu :
  calibrate true Config.twoDeadImus =
  Done (mkState [] [] [Config.imu 2 F32.zero None] Config.origin 3000
                [imuFailed (Config.imu 1 F32.zero None)]) /\
  Gyro.isCalibrated (Config.imu 2 F32.zero None) = false.
Proof. split; vm_compute; reflexivity. Qed.

(** Three gyros that are calibrated from the first millisecond on are
    still polled for the whole 3000 ms, and all three are kept. *)
Example calibrate_allCalibrated :
  calibrate true Config.allCalibrated =
  Done (mkState [] [] (gyros Config.allCalibrated) Config.origin 3000 []).
Proof. vm_compute. reflexivity. Qed.

(** C2, on a failing input.  A still gyro, two horizontal wheels and one
    vertical wheel that has moved by 1: the local y of the cycle is 1/2,
    the wheel's contribution divided by the number of horizontal wheels,
    where the average over the vertical group itself is 1. *)
Theorem localChange_y_divided_by_horizontals (sinf : float -> float) :
  headingDelta Config.lopsided = Some F32.zero /\
  length (verticals Config.lopsided) = 1%nat /\
  length (horizontals Config.lopsided) = 2%nat /\
  fst (localChange sinf F32.zero Config.lopsided) =
    Pose.mk F32.one (F32.lit 1 (-1)) F32.zero /\
  fst (trackerLoop F32.zero (chord sinf F32.zero)
         (length (verticals Config.lopsided)) (verticals Config.lopsided) F32.zero)
  = F32.one.
Proof. repeat split; vm_compute; reflexivity. Qed.

(** C9, on a failing input.  A still gyro, one vertical wheel that has
    moved by 1 and no horizontal wheel: heading resolution succeeds, the
    vertical loop runs, and its divisor [horizontals.size()] is zero, so
    that the local y of the cycle is [1 / 0], positive infinity. *)
Theorem localChange_divides_by_zero (sinf : float -> float) :
  headingDelta Config.gyroAndVertical = Some F32.zero /\
  verticals Config.gyroAndVertical <> [] /\
  F32.of_size (length (horizontals Config.gyroAndVertical)) = F32.zero /\
  Pose.y (fst (localChange sinf F32.zero Config.gyroAndVertical)) =
    F32.zero + F32.one * F32.one
               / F32.of_size (length (horizontals Config.gyroAndVertical)) /\
  Pose.y (fst (localChange sinf F32.zero Config.gyroAndVertical)) = S754_infinity false.
Proof. repeat split; try discriminate; vm_compute; reflexivity. Qed.

(** C4 as stated fails.  At heading 1 rad a single gyro reports a turn
    of 2^-25 rad, which is also the mean; [1 + 2^-25] rounds to [1], so
    the heading change used for the cycle is 0. *)
Lemma tinyTurn_not_mean :
  gyros Config.tinyTurn <> [] /\
  meanRotationDelta (gyros Config.tinyTurn) = F32.lit 1 (-25) /\
  headingDelta Config.tinyTurn = Some F32.zero /\
  headingDelta Config.tinyTurn <> Some (meanRotationDelta (gyros Config.tinyTurn)).
Proof.
  split; [discriminate|]. split; [vm_compute; reflexivity|].
  split; [vm_compute; reflexivity|]. vm_compute. discriminate.
Qed.

(** C8, on a failing input.  A still gyro, one horizontal and two vertical
    wheels, each of which has moved by 1, at heading 0 (where the sine is
    0 and the cosine 1): the heading change is 0, the local displacement
    is [(1, 2)] and [update()] moves the pose from the origin to [(1, 2)],
    not by 1 along each axis. *)
Theorem update_straight_line_overshoots (sinf cosf : float -> float) :
  sinf F32.zero = F32.zero ->
  cosf F32.zero = F32.one ->
  headingDelta Config.straightLine = Some F32.zero /\
  fst (localChange sinf F32.zero Config.straightLine) = Pose.mk F32.one F32.two F32.zero /\
  (update sinf cosf Config.straightLine).(pose) = Pose.mk F32.one F32.two F32.zero.
Proof.
  intros Hsin Hcos. split; [vm_compute; reflexivity|].
  split; [vm_compute; reflexivity|].
  erewrite update_pose by (vm_compute; reflexivity).
  match goal with |- context [Pose.rotate _ _ ?a ?l] =>
    let a' := eval vm_compute in a in
    let l' := eval vm_compute in l in
    change a with a'; change l with l' end.
  unfold Pose.rotate. cbn [Pose.x Pose.y Pose.theta].
  change (S754_zero false) with F32.zero. rewrite Hsin, Hcos.
  vm_compute. reflexivity.
Qed.

(** ** Witnesses *)

Lemma update_insufficient_sensors_witness :
  gyros Config.oneWheelEach = [] /\
  length (horizontals Config.oneWheelEach) < 2 /\
  length (verticals Config.oneWheelEach) < 2 /\
  update Config.sinAtZero Config.cosAtZero Config.oneWheelEach =
    setLogs [notEnoughSensors] Config.oneWheelEach /\
  (update Config.sinAtZero Config.cosAtZero Config.oneWheelEach).(pose) = Config.origin.
Proof.
  split; [reflexivity|]. split; [apply le_n|]. split; [apply le_n|].
  apply (update_insufficient_sensors Config.sinAtZero Config.cosAtZero Config.oneWheelEach);
    [reflexivity|apply le_n|apply le_n].
Defined.

Lemma calcDeltaTheta_two_wheels_witness :
  (TrackingWheel.offset Config.leftWheel == TrackingWheel.offset Config.rightWheel) = false /\
  calcDeltaTheta Config.leftWheel Config.rightWheel =
    ((F32.of_Z 3 - F32.of_Z 1) / (F32.of_Z 1 - F32.of_Z (-1)),
     (Config.leftWheel, Config.rightWheel)).
Proof.
  split; [reflexivity|].
  apply (calcDeltaTheta_two_wheels Config.leftWheel Config.rightWheel). reflexivity.
Defined.

Lemma update_midpoint_rotation_witness :
  resolveTheta Config.straightLine = Some (F32.zero, Config.straightLine) /\
  (update Config.sinAtZero Config.cosAtZero Config.straightLine).(pose).(Pose.theta) =
    Config.straightLine.(pose).(Pose.theta)
    + (F32.zero - Config.straightLine.(pose).(Pose.theta)).
Proof.
  split; [reflexivity|].
  apply (update_midpoint_rotation Config.sinAtZero Config.cosAtZero
           Config.straightLine Config.straightLine F32.zero).
  reflexivity.
Defined.

Lemma update_straight_line_overshoots_witness :
  Config.sinAtZero F32.zero = F32.zero /\
  Config.cosAtZero F32.zero = F32.one /\
  (update Config.sinAtZero Config.cosAtZero Config.straightLine).(pose) =
    Pose.mk F32.one F32.two F32.zero.
Proof.
  split; [reflexivity|]. split; [reflexivity|].
  apply (update_straight_line_overshoots Config.sinAtZero Config.cosAtZero);
    reflexivity.
Defined.

(** * Further properties of the code *)

Local Close Scope f32_scope.

(** ** The erasing loops, in general *)

Section EraseMore.
Context {A : Type} (visit : A -> bool * A) (entry : A -> LogEntry).

(** If no element fails, all are visited and kept. *)
Lemma eraseSkipping_all_pass (v : list A) : forall out,
  Forall (fun a => fst (visit a) = false) v ->
  eraseSkipping visit entry v out = Done (map (fun a => snd (visit a)) v, out).
Proof.
  induction v as [|a rest IH]; intros out Hall; cbn [eraseSkipping map]; [reflexivity|].
  inversion Hall as [|? ? Ha Hrest]; subst.
  destruct (visit a) as [failed a'] eqn:Ev. cbn in Ha. subst failed.
  rewrite IH by assumption. reflexivity.
Qed.

Lemma eraseWhile_all_pass (v : list A) (out : list LogEntry) :
  Forall (fun a => fst (visit a) = false) v ->
  eraseWhile visit entry v out = Done (map (fun a => snd (visit a)) v, out).
Proof. intros Hall. rewrite eraseWhile_skipping. apply eraseSkipping_all_pass, Hall. Qed.

(** If only the last element fails, the iterator runs off the end. *)
Lemma eraseWhile_last_fails (v : list A) (a : A) (out : list LogEntry) :
  Forall (fun a => fst (visit a) = false) v ->
  fst (visit a) = true ->
  eraseWhile visit entry (v ++ [a]) out = Undefined.
Proof.
  intros Hall Ha. rewrite eraseWhile_skipping.
  induction v as [|b rest IH]; cbn [app eraseSkipping].
  - destruct (visit a) as [failed a']. cbn in Ha. subst. reflexivity.
  - inversion Hall as [|? ? Hb Hrest]; subst.
    destruct (visit b) as [failed b']. cbn in Hb. subst failed.
    rewrite IH by assumption. reflexivity.
Qed.



End EraseMore.

(** ** [calibrate] *)

Section CalibrateMore.
Context {G : Type} `{Gyro.t G}.

(** X1.  If [reset()] succeeds on every wheel, [calibrate(false)] returns
    with every wheel of both groups kept in its place and reset, and with
    the gyros, the pose, the clock and the log as they were. *)
Theorem calibrate_healthy_wheels (s : State G) :
  Forall (fun w => TrackingWheel.resetFails w = false) s.(verticals) ->
  Forall (fun w => TrackingWheel.resetFails w = false) s.(horizontals) ->
  calibrate false s =
  Done (mkState (map (fun w => snd (TrackingWheel.reset w)) s.(verticals))
                (map (fun w => snd (TrackingWheel.reset w)) s.(horizontals))
                s.(gyros) s.(pose) s.(millis) s.(logs)).
Proof.
  intros Hv Hh. unfold calibrate.
  rewrite (eraseWhile_all_pass TrackingWheel.reset verticalFailed) by exact Hv.
  cbn [bind fst snd setVerticals setLogs verticals horizontals gyros pose millis logs].
  rewrite (eraseWhile_all_pass TrackingWheel.reset horizontalFailed) by exact Hh.
  reflexivity.
Qed.

(** X2.  If [reset()] succeeds on every wheel and every gyro reports
    itself calibrated when the 3000 ms of polling are over,
    [calibrate(true)] returns with all sensors kept in their places and
    nothing written to the log. *)
Theorem calibrate_healthy_sensors (s : State G) :
  Forall (fun w => TrackingWheel.resetFails w = false) s.(verticals) ->
  Forall (fun w => TrackingWheel.resetFails w = false) s.(horizontals) ->
  Forall (fun g => Gyro.isCalibrated (polled g) = true) s.(gyros) ->
  calibrate true s =
  Done (mkState (map (fun w => snd (TrackingWheel.reset w)) s.(verticals))
                (map (fun w => snd (TrackingWheel.reset w)) s.(horizontals))
                (map polled s.(gyros)) s.(pose) (s.(millis) + 3000) s.(logs)).
Proof.
  intros Hv Hh Hg. unfold calibrate.
  rewrite (eraseWhile_all_pass TrackingWheel.reset verticalFailed) by exact Hv.
  cbn [bind fst snd setVerticals setLogs verticals horizontals gyros pose millis logs].
  rewrite (eraseWhile_all_pass TrackingWheel.reset horizontalFailed) by exact Hh.
  cbn [bind fst snd]. rewrite pollGyros_done.
  cbn [bind fst snd setVerticals setHorizontals setLogs verticals horizontals gyros pose millis logs].
  rewrite eraseWhile_all_pass.
  - cbn [bind fst snd setGyros setLogs verticals horizontals gyros pose millis logs].
    rewrite map_id. reflexivity.
  - apply Forall_map. eapply Forall_impl; [exact Hg|].
    intros g Hc. change (negb (Gyro.isCalibrated (polled g)) = false).
    rewrite Hc. reflexivity.
Qed.

(** X3.  If the last vertical wheel is the only one on which [reset()]
    fails, [calibrate()] erases it and then increments the iterator past
    [end()]: the call has undefined behaviour, whatever the flag. *)
Theorem calibrate_last_vertical_fails (flag : bool) (s : State G)
    (front : list TrackingWheel.t) (w : TrackingWheel.t) :
  s.(verticals) = front ++ [w] ->
  Forall (fun w => TrackingWheel.resetFails w = false) front ->
  TrackingWheel.resetFails w = true ->
  calibrate flag s = Undefined.
Proof.
  intros Hs Hfront Hw. unfold calibrate. rewrite Hs.
  rewrite (eraseWhile_last_fails TrackingWheel.reset verticalFailed) by assumption.
  reflexivity.
Qed.


End CalibrateMore.

(** ** [update] *)

Local Open Scope f32_scope.

Section FloatFacts.

Lemma F32_sub_diag (x : float) : finite x = true -> x - x = F32.zero.
Proof.
  destruct x as [s|s| |s m e]; try discriminate; intros _.
  - destruct s; reflexivity.
  - unfold F32.sub, SFsub. rewrite Z.sub_diag. reflexivity.
Qed.

Lemma F32_div_zero (x : float) (s : bool) : finite (x / S754_zero s) = false.
Proof. destruct x; reflexivity. Qed.

Lemma add_not_finite_l (x y : float) : finite x = false -> finite (x + y) = false.
Proof.
  destruct x as [| sx | |], y as [| sy | |]; try discriminate; intros _;
    try reflexivity; destruct sx, sy; reflexivity.
Qed.

Lemma add_not_finite_r (x y : float) : finite y = false -> finite (x + y) = false.
Proof.
  destruct x as [| sx | |], y as [| sy | |]; try discriminate; intros _;
    try reflexivity; destruct sx, sy; reflexivity.
Qed.

Lemma sub_not_finite_l (x y : float) : finite x = false -> finite (x - y) = false.
Proof.
  destruct x as [| sx | |], y as [| sy | |]; try discriminate; intros _;
    try reflexivity; destruct sx, sy; reflexivity.
Qed.

End FloatFacts.

Section UpdateMore.
Context {G : Type} `{Gyro.t G}.
Variables sinf cosf : float -> float.

Lemma State_eta (s : State G) :
  mkState s.(verticals) s.(horizontals) s.(gyros) s.(pose) s.(millis) s.(logs) = s.
Proof. destruct s; reflexivity. Qed.

Lemma resolveTheta_cases (s : State G) :
  if enoughSensors s
  then exists theta,
         resolveTheta s =
         Some (theta, setGyros (map (fun g => snd (Gyro.getRotationDelta g)) s.(gyros)) s)
  else resolveTheta s = None.
Proof.
  unfold enoughSensors, resolveTheta, calcDeltaTheta_gyros. rewrite gyroLoop_sum.
  destruct (gyros s) as [|g gs] eqn:Eg; cbn [length Nat.ltb Nat.leb orb].
  - assert (setGyros [] s = s) as Hs
      by (unfold setGyros; rewrite <- Eg; apply State_eta).
    cbn [map]. rewrite Hs.
    destruct (horizontals s) as [|h1 [|h2 hs]] eqn:Eh; cbn [length Nat.ltb Nat.leb orb].
    1,2: destruct (verticals s) as [|v1 [|v2 vs]] eqn:Ev; cbn [length Nat.ltb Nat.leb orb];
         try reflexivity;
         rewrite calcDeltaTheta_eq; eexists; do 2 f_equal;
         unfold setVerticals; rewrite <- Ev; apply State_eta.
    rewrite calcDeltaTheta_eq; eexists; do 2 f_equal.
    unfold setHorizontals; rewrite <- Eh; apply State_eta.
  - eexists. reflexivity.
Qed.

Lemma trackerLoop_consumed dtheta chord size (ws : list TrackingWheel.t) : forall axis,
  snd (trackerLoop dtheta chord size ws axis) = map consumed ws.
Proof.
  induction ws as [|w ws IH]; intros axis; cbn [trackerLoop map]; [reflexivity|].
  assert (snd (arcRadius dtheta w) = consumed w) as Hw.
  { unfold arcRadius. destruct (dtheta == F32.zero); reflexivity. }
  destruct (arcRadius dtheta w) as [r w']. cbn [snd] in Hw. subst w'.
  specialize (IH (axis + chord * r / F32.of_size size)).
  destruct (trackerLoop dtheta chord size ws _) as [a ws']. cbn [snd] in *.
  rewrite IH. reflexivity.
Qed.

Lemma localChange_state dtheta (s : State G) :
  snd (localChange sinf dtheta s) =
  setVerticals (map consumed s.(verticals)) (setHorizontals (map consumed s.(horizontals)) s).
Proof.
  unfold localChange.
  pose proof (trackerLoop_consumed dtheta (chord sinf dtheta) (length (horizontals s))
                (horizontals s) F32.zero) as Hh.
  pose proof (trackerLoop_consumed dtheta (chord sinf dtheta) (length (horizontals s))
                (verticals s) F32.zero) as Hv.
  destruct (trackerLoop dtheta _ _ (horizontals s) _) as [x hs].
  destruct (trackerLoop dtheta _ _ (verticals s) _) as [y vs].
  cbn [snd] in *. subst. reflexivity.
Qed.

Lemma update_state (s : State G) :
  if enoughSensors s
  then exists p,
    update sinf cosf s =
    mkState (map consumed s.(verticals)) (map consumed s.(horizontals))
            (map (fun g => snd (Gyro.getRotationDelta g)) s.(gyros))
            p s.(millis)
            (s.(logs) ++ if Nat.eqb (length s.(verticals)) 0 then [noVerticals] else [])
  else update sinf cosf s = log notEnoughSensors s.
Proof.
  pose proof (resolveTheta_cases s) as Hr. unfold update.
  destruct (enoughSensors s); [|rewrite Hr; reflexivity].
  destruct Hr as (theta & ->).
  match goal with |- context [localChange sinf ?d ?s1] =>
    pose proof (localChange_state d s1) as Hl;
    destruct (localChange sinf d s1) as [local s2] end.
  cbn [snd] in Hl. subst s2.
  cbn [setVerticals setHorizontals setGyros verticals horizontals gyros pose millis logs].
  rewrite length_map.
  destruct (length (verticals s) =? 0)%nat; eexists; cbn; rewrite ?app_nil_r; reflexivity.
Qed.

(** X7.  One call of [update()] writes at most one entry: the error of
    line 124 when no heading can be resolved, the warning of line 148 when
    a heading is resolved and there is no vertical wheel, and nothing
    otherwise. *)
Theorem update_log (s : State G) :
  (update sinf cosf s).(logs) =
  s.(logs) ++
  if enoughSensors s
  then if Nat.eqb (length s.(verticals)) 0 then [noVerticals] else []
  else [notEnoughSensors].
Proof.
  pose proof (update_state s) as Hu.
  destruct (enoughSensors s); [destruct Hu as (p & ->)|rewrite Hu]; reflexivity.
Qed.

(** X8.  In every call of [update()] each gyro is left as one
    [getRotationDelta()] leaves it, none is added or removed, and the
    clock does not move. *)
Theorem update_reads_each_gyro_once (s : State G) :
  (update sinf cosf s).(gyros) = map (fun g => snd (Gyro.getRotationDelta g)) s.(gyros) /\
  (update sinf cosf s).(millis) = s.(millis).
Proof.
  pose proof (update_state s) as Hu. unfold enoughSensors in Hu.
  destruct (gyros s) as [|g gs] eqn:Eg.
  - cbn [length Nat.ltb Nat.leb orb] in Hu.
    destruct (_ || _); [destruct Hu as (p & ->)|rewrite Hu; cbn; rewrite Eg];
      split; reflexivity.
  - cbn [length Nat.ltb Nat.leb orb] in Hu. destruct Hu as (p & ->). split; reflexivity.
Qed.

(** X9.  In a call of [update()] that resolves a heading, every wheel of
    both groups is left as one consuming [getDistanceDelta()] leaves it,
    also the two wheels read without consuming while the heading was
    resolved: afterwards each wheel's marker stands at its current
    reading. *)
Theorem update_consumes_each_wheel_once (s : State G) :
  enoughSensors s = true ->
  (update sinf cosf s).(verticals) = map consumed s.(verticals) /\
  (update sinf cosf s).(horizontals) = map consumed s.(horizontals) /\
  Forall (fun w => TrackingWheel.lastRead w = TrackingWheel.distance w)
         ((update sinf cosf s).(verticals) ++ (update sinf cosf s).(horizontals)).
Proof.
  intros He. pose proof (update_state s) as Hu. rewrite He in Hu.
  destruct Hu as (p & ->). cbn [verticals horizontals].
  split; [reflexivity|]. split; [reflexivity|].
  rewrite <- map_app. apply Forall_map, Forall_true. intros w. reflexivity.
Qed.

(** X10.  Without a gyro, if the two wheels the heading is resolved from
    are mounted at the same finite offset, the division of line 80 is by
    zero: the heading change is an infinity or a NaN, and so is the
    heading stored by [update()]. *)
Theorem update_equal_offsets_not_finite (s : State G)
    (s1 s2 : TrackingWheel.t) (rest : list TrackingWheel.t) :
  s.(gyros) = [] ->
  s.(horizontals) = s1 :: s2 :: rest \/
  (length s.(horizontals) < 2 /\ s.(verticals) = s1 :: s2 :: rest) ->
  TrackingWheel.offset s1 = TrackingWheel.offset s2 ->
  finite (TrackingWheel.offset s1) = true ->
  finite (fst (calcDeltaTheta s1 s2)) = false /\
  finite (update sinf cosf s).(pose).(Pose.theta) = false.
Proof.
  intros Hg Hw Ho Hfin.
  assert (finite (fst (calcDeltaTheta s1 s2)) = false) as Hd.
  { rewrite calcDeltaTheta_eq. cbn [fst]. rewrite <- Ho, F32_sub_diag by exact Hfin.
    apply F32_div_zero. }
  split; [exact Hd|].
  assert (exists s', resolveTheta s =
            Some (s.(pose).(Pose.theta) + fst (calcDeltaTheta s1 s2), s')) as (s' & Hr).
  { unfold resolveTheta. rewrite Hg. cbn [length Nat.ltb Nat.leb].
    destruct Hw as [->|[Hlen ->]].
    - rewrite calcDeltaTheta_eq. eexists. reflexivity.
    - destruct (horizontals s) as [|h1 [|h2 hs]]; [| |cbn in Hlen; lia];
        rewrite calcDeltaTheta_eq; eexists; reflexivity. }
  rewrite (update_pose sinf cosf s s' _ Hr).
  unfold Pose.add, Pose.rotate. cbn [Pose.theta].
  rewrite localChange_theta.
  apply add_not_finite_r, sub_not_finite_l, add_not_finite_r, Hd.
Qed.

End UpdateMore.

(** ** Witnesses of the further properties *)

Local Close Scope f32_scope.

Lemma calibrate_healthy_wheels_witness :
  calibrate false Fleet.healthy =
  Done (mkState [Config.wheel 1 0 false] [Config.wheel 2 0 false]
                [Config.imu 1 F32.zero (Some 50)] Config.origin 0 []).
Proof.
  apply (calibrate_healthy_wheels Fleet.healthy); repeat constructor.
Defined.

Lemma calibrate_healthy_sensors_witness :
  calibrate true Fleet.healthy =
  Done (mkState [Config.wheel 1 0 false] [Config.wheel 2 0 false]
                [SimGyro.setStatus SimGyro.Calibrated (Config.imu 1 F32.zero (Some 50))]
                Config.origin 3000 []).
Proof.
  rewrite (calibrate_healthy_sensors Fleet.healthy).
  - vm_compute. reflexivity.
  - repeat constructor.
  - repeat constructor.
  - constructor; [vm_compute; reflexivity|constructor].
Defined.

Lemma calibrate_last_vertical_fails_witness :
  calibrate true Config.oneDeadVertical = Undefined.
Proof.
  apply (calibrate_last_vertical_fails true Config.oneDeadVertical []
           (Config.wheel 1 0 true)); [reflexivity|constructor|reflexivity].
Defined.


Lemma update_consumes_each_wheel_once_witness :
  enoughSensors Config.straightLine = true /\
  (update Config.sinAtZero Config.cosAtZero Config.straightLine).(verticals) =
    map consumed Config.straightLine.(verticals).
Proof.
  split; [reflexivity|].
  apply (update_consumes_each_wheel_once Config.sinAtZero Config.cosAtZero
           Config.straightLine). reflexivity.
Defined.

Lemma update_equal_offsets_not_finite_witness :
  finite (TrackingWheel.offset (Config.wheel 1 3 false)) = true /\
  finite (update Config.sinAtZero Config.cosAtZero Fleet.twinOffsets).(pose).(Pose.theta)
  = false.
Proof.
  split; [reflexivity|].
  apply (update_equal_offsets_not_finite Config.sinAtZero Config.cosAtZero
           Fleet.twinOffsets (Config.wheel 1 3 false) (Config.wheel 1 1 false) []);
    [reflexivity|left; reflexivity|reflexivity|reflexivity].
Defined.
